(** * A shallow embedding of [timer_lib.py] and [point_class.py]

    Timestamps and durations are rationals ([Q]): [time.perf_counter()]
    is read from an explicit clock, Python's [float('inf')] is the
    constructor [PosInf] of [PyFloat].  Exceptions are values of [Exn];
    an operation that raises returns [Err] together with the state it had
    reached when the [raise] executed. *)

From Stdlib Require Import QArith Qminmax String List Bool Lia.
Import ListNotations.
Open Scope string_scope.
Open Scope list_scope.

(** ** Python values the code needs *)

Inductive Exn : Type :=
| TimerException (msg : string)
| TypeError (msg : string)
| ZeroDivisionError (msg : string)
| AttributeError (msg : string)
| UserError (code : nat).

Inductive Result (A : Type) : Type :=
| Ok (v : A)
| Err (e : Exn).
Arguments Ok {A} v.
Arguments Err {A} e.

(** [float] results that may be infinite. *)
Inductive PyFloat : Type :=
| Fin (q : Q)
| PosInf.

(** The three [TimerException]s raised by [Timer] (spec kinds
    AlreadyRunning, NotRunning, NeverRun). *)
Definition AlreadyRunning : Exn :=
  TimerException "Timer is running, use stop() before starting again".
Definition NotRunning : Exn :=
  TimerException "Timer is not running, use start() first".
Definition NeverRun : Exn :=
  TimerException "Timer has not run yet, use start() and stop() first".

(** ** class Timer *)

Record Timer : Type := mkTimer {
  _start_time : option Q;
  _elapsed_time : option Q
}.

(** [Timer.__init__] *)
Definition Timer_init : Timer := mkTimer None None.

(** [Timer.start]; [now] is the value of [time.perf_counter()]. *)
Definition start (now : Q) (self : Timer) : Result unit * Timer :=
  match _start_time self with
  | Some _ => (Err AlreadyRunning, self)
  | None => (Ok tt, mkTimer (Some now) (_elapsed_time self))
  end.

(** [Timer.stop]; [now] is the value of [time.perf_counter()]. *)
Definition stop (now : Q) (self : Timer) : Result unit * Timer :=
  match _start_time self with
  | None => (Err NotRunning, self)
  | Some st =>
      (* [_elapsed_time] is assigned first, then [_start_time] cleared *)
      (Ok tt, mkTimer None (Some (now - st)))
  end.

(** [Timer.elapsed] *)
Definition elapsed (self : Timer) : Result Q :=
  match _elapsed_time self with
  | None => Err NeverRun
  | Some e => Ok e
  end.

(** [Timer.reset] *)
Definition reset (self : Timer) : Timer :=
  mkTimer None None.

(** [Timer.is_running] *)
Definition is_running (self : Timer) : bool :=
  match _start_time self with
  | Some _ => true
  | None => false
  end.

(** ** The world the code runs in

    [clock] is the reading of [time.perf_counter()]; only the timed work
    advances it.  [timer] is the [Timer] object the caller holds, the one
    a [with] statement manages and the timed work may also call. *)

Record World : Type := mkWorld {
  clock : Q;
  timer : Timer
}.

(** Statements run in a state and exception monad over [World]. *)
Definition M (A : Type) : Type := World -> Result A * World.

Definition ret {A} (a : A) : M A := fun w => (Ok a, w).

Definition bind {A B} (m : M A) (k : A -> M B) : M B :=
  fun w =>
    match m w with
    | (Ok a, w1) => k a w1
    | (Err e, w1) => (Err e, w1)
    end.

Declare Scope py_scope.
Notation "x <- m ;; k" := (bind m (fun x => k))
  (at level 61, m at next level, right associativity) : py_scope.
Notation "m ;; k" := (bind m (fun _ => k))
  (at level 61, right associativity) : py_scope.
Open Scope py_scope.

Definition raise {A} (e : Exn) : M A := fun w => (Err e, w).

(** Work that takes [d] seconds of [perf_counter] time. *)
Definition tick (d : Q) : M unit :=
  fun w => (Ok tt, mkWorld (clock w + d) (timer w)).

(** A method call [timer.m()] on the caller's timer, reading the clock. *)
Definition on_timer {A} (m : Q -> Timer -> Result A * Timer) : M A :=
  fun w =>
    let '(r, t) := m (clock w) (timer w) in
    (r, mkWorld (clock w) t).

(** The [with] statement (PEP 343): [__exit__] is called on every exit of
    the body, with the exception if one is propagating; a true result of
    [__exit__] suppresses it; an exception raised by [__exit__] replaces
    it. *)
Definition with_stmt {A} (enter : M A) (exit : option Exn -> M bool)
    (body : A -> M unit) : M unit :=
  fun w =>
    match enter w with
    | (Err e, w1) => (Err e, w1)
    | (Ok a, w1) =>
        match body a w1 with
        | (Ok tt, w2) =>
            match exit None w2 with
            | (Err e', w3) => (Err e', w3)
            | (Ok _, w3) => (Ok tt, w3)
            end
        | (Err e, w2) =>
            match exit (Some e) w2 with
            | (Err e', w3) => (Err e', w3)
            | (Ok true, w3) => (Ok tt, w3)
            | (Ok false, w3) => (Err e, w3)
            end
        end
    end.

(** [Timer.__enter__]: [self.start(); return self]. *)
Definition __enter__ : M unit := on_timer start ;; ret tt.

(** [Timer.__exit__]: [self.stop()], returning [None] (false). *)
Definition __exit__ (exc : option Exn) : M bool := on_timer stop ;; ret false.

(** [with timer: body] *)
Definition with_timer (body : M unit) : M unit :=
  with_stmt __enter__ __exit__ (fun _ => body).

(** ** Utility functions *)

Section Utilities.

Context {Args R R1 R2 : Type}.

(** [time_function]: the frame of the call, with its local [timer]
    returned beside the result so that its final state can be observed. *)
Definition time_function_frame (func : Args -> M R) (args : Args) (w : World)
    : Result (R * Q) * Timer * World :=
  let timer := Timer_init in
  let '(r1, timer) := start (clock w) timer in
  match r1 with
  | Err e => (Err e, timer, w)
  | Ok _ =>
      let '(r2, w) := func args w in
      match r2 with
      | Err e => (Err e, timer, w)
      | Ok result =>
          let '(r3, timer) := stop (clock w) timer in
          match r3 with
          | Err e => (Err e, timer, w)
          | Ok _ =>
              match elapsed timer with
              | Err e => (Err e, timer, w)
              | Ok t => (Ok (result, t), timer, w)
              end
          end
      end
  end.

(** [time_function] as the caller sees it: the local timer is dropped. *)
Definition time_function (func : Args -> M R) (args : Args) : M (R * Q) :=
  fun w => let '(r, _, w') := time_function_frame func args w in (r, w').

End Utilities.

(** Python's [max(a, b)] keeps [a] unless [b] is strictly greater;
    [min(a, b)] keeps [a] unless [b] is strictly smaller. *)
Definition py_max (a b : Q) : Q := if Qlt_le_dec a b then b else a.
Definition py_min (a b : Q) : Q := if Qlt_le_dec b a then b else a.

(** Python's [/] on floats. *)
Definition py_div (x y : Q) : Result PyFloat :=
  if Qeq_bool y 0 then Err (ZeroDivisionError "float division by zero")
  else Ok (Fin (x / y)).

Definition lift {A} (r : Result A) : M A := fun w => (r, w).

(** The dictionary returned by [compare_functions]. *)
Record Comparison (R1 R2 : Type) : Type := mkComparison {
  result1 : R1;
  result2 : R2;
  time1 : Q;
  time2 : Q;
  faster : string;
  speedup : PyFloat
}.
Arguments mkComparison {R1 R2}.
Arguments result1 {R1 R2}.
Arguments result2 {R1 R2}.
Arguments time1 {R1 R2}.
Arguments time2 {R1 R2}.
Arguments faster {R1 R2}.
Arguments speedup {R1 R2}.

(** [compare_functions] *)
Definition compare_functions {Args R1 R2 : Type}
    (func1 : Args -> M R1) (func2 : Args -> M R2) (args : Args)
    : M (Comparison R1 R2) :=
  p1 <- time_function func1 args ;;
  p2 <- time_function func2 args ;;
  let '(result1, time1) := p1 in
  let '(result2, time2) := p2 in
  let faster := if Qlt_le_dec time1 time2 then "func1" else "func2" in
  speedup <- (if Qlt_le_dec 0 (py_min time1 time2)
              then lift (py_div (py_max time1 time2) (py_min time1 time2))
              else ret PosInf) ;;
  ret (mkComparison result1 result2 time1 time2 faster speedup).

(** ** class Point ([point_class.py])

    Point objects live in a heap, since [translate] mutates them in place
    and two names may denote the same object; a reference is an index. *)

Module PointClass.

Record Point : Type := mkPoint { x : Q; y : Q }.

Definition Heap : Type := list Point.

(** The operands Python may pass to [__add__]: a reference to a Point,
    an int, or an instance of another class that also has numeric [x]
    and [y] attributes. *)
Inductive Value : Type :=
| VPoint (ref : nat)
| VInt (z : Z)
| VObject (cls : string) (ox oy : Q).

(** [Point(a, b)]: allocate a fresh object. *)
Definition Point_new (a b : Q) (h : Heap) : nat * Heap :=
  (length h, (h ++ [mkPoint a b])%list).

(** [Point.translate] *)
Definition translate (self : nat) (deltax deltay : Q) (h : Heap)
    : Result unit * Heap :=
  match nth_error h self with
  | None => (Err (AttributeError "x"), h)
  | Some p =>
      let h' := (firstn self h ++ mkPoint (x p + deltax) (y p + deltay)
                :: skipn (S self) h)%list in
      (Ok tt, h')
  end.

(** [Point.__add__] *)
Definition __add__ (self : nat) (other : Value) (h : Heap)
    : Result Value * Heap :=
  match other with
  | VPoint r =>
      match nth_error h self, nth_error h r with
      | Some p, Some q =>
          let '(n, h') := Point_new (x p + x q) (y p + y q) h in
          (Ok (VPoint n), h')
      | _, _ => (Err (AttributeError "x"), h)
      end
  | _ => (Err (TypeError "add only works for Point type"), h)
  end.

End PointClass.

(** ** Sequences of [Timer] calls

    A trace is the sequence of method calls made on one [Timer], each with
    the [perf_counter] reading it would take.  A call that raises leaves the
    object as the [raise] found it and the caller goes on. *)

Inductive Op : Type := OStart | OStop | OElapsed | OReset | OIsRunning.

Definition step (s : Timer) (ev : Op * Q) : Timer :=
  match ev with
  | (OStart, now) => snd (start now s)
  | (OStop, now) => snd (stop now s)
  | (OElapsed, _) => s
  | (OReset, _) => reset s
  | (OIsRunning, _) => s
  end.

Definition run (s : Timer) (tr : list (Op * Q)) : Timer := fold_left step tr s.

(** No call of [tr], run from [s], is a [reset] or a [stop] that succeeds
    (one made while the timer runs): no new start/stop cycle completes. *)
Fixpoint no_new_cycle (s : Timer) (tr : list (Op * Q)) : Prop :=
  match tr with
  | [] => True
  | ev :: tr' =>
      fst ev <> OReset /\ (fst ev = OStop -> is_running s = false) /\
      no_new_cycle (step s ev) tr'
  end.

(** ** [Timer.__str__]

    [f"{x:.6f}"] rounds a binary float to six decimals; that formatting is
    not embedded and is a parameter [format_fixed] (precision, value). *)

(** [DEFAULT_PRECISION] *)
Definition DEFAULT_PRECISION : nat := 6.

Section TimerStr.

Variable format_fixed : nat -> Q -> string.

(** [Timer.__str__] *)
Definition __str__ (self : Timer) : string :=
  match _elapsed_time self with
  | None => "Timer has not run yet"
  | Some e => (format_fixed DEFAULT_PRECISION e ++ " seconds")%string
  end.

End TimerStr.

(** * Properties *)

Lemma run_app (s : Timer) (tr1 tr2 : list (Op * Q)) :
  run s (tr1 ++ tr2) = run (run s tr1) tr2.
Proof. unfold run. apply fold_left_app. Qed.

Lemma run_snoc (s : Timer) (tr : list (Op * Q)) (ev : Op * Q) :
  run s (tr ++ [ev]) = step (run s tr) ev.
Proof. rewrite run_app. reflexivity. Qed.

Lemma no_new_cycle_snoc (s : Timer) (tr : list (Op * Q)) (ev : Op * Q) :
  no_new_cycle s tr ->
  fst ev <> OReset -> (fst ev = OStop -> is_running (run s tr) = false) ->
  no_new_cycle s (tr ++ [ev]).
Proof.
  revert s; induction tr as [|ev' tr IH]; intros s Hn Hr Hs; simpl in *.
  - tauto.
  - destruct Hn as (H1 & H2 & H3). repeat split; auto.
Qed.

(** A running timer was started by a call made while it was idle, and
    since then only calls other than [stop] and [reset] were made. *)
Lemma running_decomp (tr : list (Op * Q)) (t0 : Q) :
  _start_time (run Timer_init tr) = Some t0 ->
  exists tr1 mid,
    tr = tr1 ++ (OStart, t0) :: mid /\
    is_running (run Timer_init tr1) = false /\
    Forall (fun ev => fst ev <> OStop /\ fst ev <> OReset) mid.
Proof.
  induction tr as [|ev tr IH] using rev_ind; intros Hst.
  - discriminate.
  - rewrite run_snoc in Hst. destruct ev as [o t].
    destruct (run Timer_init tr) as [st el] eqn:Hs.
    destruct o; simpl in Hst.
    + destruct st as [t0'|].
      * simpl in Hst. destruct (IH Hst) as (tr1 & mid & -> & Hi & Hf).
        exists tr1, (mid ++ [(OStart, t)]). split.
        { rewrite <- app_assoc. reflexivity. }
        split; [exact Hi|]. apply Forall_app; split; [exact Hf|].
        constructor; [simpl; split; discriminate | constructor].
      * simpl in Hst. injection Hst as <-.
        exists tr, []. split; [reflexivity|]. split.
        { rewrite Hs. reflexivity. }
        constructor.
    + destruct st; discriminate.
    + destruct (IH Hst) as (tr1 & mid & -> & Hi & Hf).
      exists tr1, (mid ++ [(OElapsed, t)]). split.
      { rewrite <- app_assoc. reflexivity. }
      split; [exact Hi|]. apply Forall_app; split; [exact Hf|].
      constructor; [simpl; split; discriminate | constructor].
    + discriminate.
    + destruct (IH Hst) as (tr1 & mid & -> & Hi & Hf).
      exists tr1, (mid ++ [(OIsRunning, t)]). split.
      { rewrite <- app_assoc. reflexivity. }
      split; [exact Hi|]. apply Forall_app; split; [exact Hf|].
      constructor; [simpl; split; discriminate | constructor].
Qed.

Lemma step_keeps_elapsed (s : Timer) (ev : Op * Q) :
  fst ev <> OReset -> (fst ev = OStop -> is_running s = false) ->
  _elapsed_time (step s ev) = _elapsed_time s.
Proof.
  destruct s as [[st|] el], ev as [[] t]; simpl; intros Hr Hs;
    try reflexivity; try (exfalso; apply Hr; reflexivity).
  specialize (Hs eq_refl). discriminate.
Qed.

Lemma no_new_cycle_keeps_elapsed (s : Timer) (tr : list (Op * Q)) :
  no_new_cycle s tr -> _elapsed_time (run s tr) = _elapsed_time s.
Proof.
  revert s; induction tr as [|ev tr IH]; intros s Hn; simpl in *.
  - reflexivity.
  - destruct Hn as (H1 & H2 & H3). unfold run in *. simpl.
    rewrite (IH _ H3). apply step_keeps_elapsed; assumption.
Qed.

(** ** C2: failing [start] and [stop] change nothing *)

(** C2: [start] on a running timer raises AlreadyRunning and leaves the
    object as it was (still running, same start timestamp); [stop] on an
    idle timer raises NotRunning and leaves the object as it was (still
    idle, same stored duration). *)
Theorem failing_start_stop_atomic (now : Q) (s : Timer) :
  (is_running s = true ->
     start now s = (Err AlreadyRunning, s) /\
     is_running (snd (start now s)) = true /\
     _start_time (snd (start now s)) = _start_time s) /\
  (is_running s = false ->
     stop now s = (Err NotRunning, s) /\
     is_running (snd (stop now s)) = false /\
     _elapsed_time (snd (stop now s)) = _elapsed_time s).
Proof.
  destruct s as [[st|] el]; unfold is_running, start, stop; simpl;
    split; intros H; try discriminate; auto.
Qed.

Lemma failing_start_stop_atomic_witness :
  start 7 (mkTimer (Some 2) (Some 1)) = (Err AlreadyRunning, mkTimer (Some 2) (Some 1)) /\
  stop 7 (mkTimer None (Some 1)) = (Err NotRunning, mkTimer None (Some 1)).
Proof.
  split.
  - apply (proj1 (failing_start_stop_atomic 7 (mkTimer (Some 2) (Some 1))) eq_refl).
  - apply (proj2 (failing_start_stop_atomic 7 (mkTimer None (Some 1))) eq_refl).
Defined.

(** ** C6: a fresh timer *)

(** C6: a freshly constructed [Timer] is not running and [elapsed()]
    raises NeverRun. *)
Theorem fresh_timer_state :
  is_running Timer_init = false /\ elapsed Timer_init = Err NeverRun.
Proof. split; reflexivity. Qed.

(** ** C7: [reset] *)

(** C7: [reset] cannot raise and, from every state, leaves the timer idle:
    [is_running()] is false and [elapsed()] raises NeverRun. *)
Theorem reset_from_any_state (s : Timer) :
  _start_time (reset s) = None /\
  is_running (reset s) = false /\
  elapsed (reset s) = Err NeverRun.
Proof. repeat split. Qed.

(** ** C9: the stored duration *)

(** C9: in every state reached from a fresh timer, a stored duration [d]
    is [t1 - t0] for the most recent matched pair: a [start] at [t0] made
    while idle, followed by calls other than [stop] and [reset], then a
    [stop] at [t1], after which no [reset] and no successful [stop] was
    made.  Conversely a stored duration stays as it is through every call
    sequence that makes no [reset] and no successful [stop]. *)
Theorem stored_duration_invariant :
  (forall tr d,
     _elapsed_time (run Timer_init tr) = Some d ->
     exists tr1 t0 mid t1 tr2,
       tr = tr1 ++ (OStart, t0) :: mid ++ (OStop, t1) :: tr2 /\
       is_running (run Timer_init tr1) = false /\
       Forall (fun ev => fst ev <> OStop /\ fst ev <> OReset) mid /\
       no_new_cycle (run Timer_init (tr1 ++ (OStart, t0) :: mid ++ [(OStop, t1)])) tr2 /\
       d = t1 - t0) /\
  (forall tr tr2 d,
     _elapsed_time (run Timer_init tr) = Some d ->
     no_new_cycle (run Timer_init tr) tr2 ->
     _elapsed_time (run Timer_init (tr ++ tr2)) = Some d).
Proof.
  split.
  - intros tr. induction tr as [|ev tr IH] using rev_ind; intros d Hd.
    + discriminate.
    + rewrite run_snoc in Hd. destruct ev as [o t].
      destruct (run Timer_init tr) as [st el] eqn:Hs.
      destruct o.
      * (* start keeps the stored duration *)
        assert (Hk : el = Some d) by (destruct st; exact Hd).
        subst el. destruct (IH d eq_refl) as (tr1 & t0 & mid & t1 & tr2 & Htr & Hi & Hf & Hn & Hdd).
        exists tr1, t0, mid, t1, (tr2 ++ [(OStart, t)]).
        split; [rewrite Htr; repeat (rewrite <- app_assoc; simpl); reflexivity|].
        split; [exact Hi|]. split; [exact Hf|]. split; [|exact Hdd].
        apply no_new_cycle_snoc; [exact Hn | simpl; discriminate | simpl; discriminate].
      * destruct st as [t0|].
        -- (* a successful stop closes the cycle started at t0 *)
           simpl in Hd. injection Hd as <-.
           assert (Hst : _start_time (run Timer_init tr) = Some t0) by (rewrite Hs; reflexivity).
           destruct (running_decomp tr t0 Hst) as (tr1 & mid & -> & Hi & Hf).
           exists tr1, t0, mid, t, []. split.
           { rewrite <- app_assoc. reflexivity. }
           repeat split; auto.
        -- simpl in Hd. subst el.
           destruct (IH d eq_refl) as (tr1 & t0 & mid & t1 & tr2 & Htr & Hi & Hf & Hn & Hdd).
           exists tr1, t0, mid, t1, (tr2 ++ [(OStop, t)]).
           split; [rewrite Htr; repeat (rewrite <- app_assoc; simpl); reflexivity|].
           split; [exact Hi|]. split; [exact Hf|]. split; [|exact Hdd].
           apply no_new_cycle_snoc; [exact Hn | simpl; discriminate |].
           intros _. rewrite <- run_app.
           replace ((tr1 ++ (OStart, t0) :: mid ++ [(OStop, t1)]) ++ tr2) with tr.
           ++ rewrite Hs. reflexivity.
           ++ rewrite Htr. repeat (rewrite <- app_assoc; simpl). reflexivity.
      * simpl in Hd. subst el.
        destruct (IH d eq_refl) as (tr1 & t0 & mid & t1 & tr2 & Htr & Hi & Hf & Hn & Hdd).
        exists tr1, t0, mid, t1, (tr2 ++ [(OElapsed, t)]).
        split; [rewrite Htr; repeat (rewrite <- app_assoc; simpl); reflexivity|].
        split; [exact Hi|]. split; [exact Hf|]. split; [|exact Hdd].
        apply no_new_cycle_snoc; [exact Hn | simpl; discriminate | simpl; discriminate].
      * discriminate.
      * simpl in Hd. subst el.
        destruct (IH d eq_refl) as (tr1 & t0 & mid & t1 & tr2 & Htr & Hi & Hf & Hn & Hdd).
        exists tr1, t0, mid, t1, (tr2 ++ [(OIsRunning, t)]).
        split; [rewrite Htr; repeat (rewrite <- app_assoc; simpl); reflexivity|].
        split; [exact Hi|]. split; [exact Hf|]. split; [|exact Hdd].
        apply no_new_cycle_snoc; [exact Hn | simpl; discriminate | simpl; discriminate].
  - intros tr tr2 d Hd Hn. rewrite run_app, no_new_cycle_keeps_elapsed by exact Hn.
    exact Hd.
Qed.

Lemma stored_duration_invariant_witness :
  (exists tr1 t0 mid t1 tr2,
     [(OStart, 1); (OStart, 2); (OStop, 4); (OStart, 6)] =
       tr1 ++ (OStart, t0) :: mid ++ (OStop, t1) :: tr2 /\
     is_running (run Timer_init tr1) = false /\
     Forall (fun ev => fst ev <> OStop /\ fst ev <> OReset) mid /\
     no_new_cycle (run Timer_init (tr1 ++ (OStart, t0) :: mid ++ [(OStop, t1)])) tr2 /\
     4 - 1 = t1 - t0) /\
  _elapsed_time (run Timer_init ([(OStart, 1); (OStop, 4)] ++ [(OStop, 5); (OStart, 6)]))
    = Some (4 - 1).
Proof.
  split.
  - apply (proj1 stored_duration_invariant). reflexivity.
  - apply (proj2 stored_duration_invariant).
    + reflexivity.
    + simpl. repeat split; discriminate.
Defined.

(** ** C3 and C10: [with timer:] *)

(** The world just after [__enter__] succeeded on an idle timer. *)
Definition started (w : World) : World :=
  mkWorld (clock w) (mkTimer (Some (clock w)) (_elapsed_time (timer w))).

Lemma with_timer_unfold (body : M unit) (w : World) :
  with_timer body w =
  match start (clock w) (timer w) with
  | (Err e, t1) => (Err e, mkWorld (clock w) t1)
  | (Ok _, t1) =>
      match body (mkWorld (clock w) t1) with
      | (Ok tt, w2) =>
          match stop (clock w2) (timer w2) with
          | (Err e', t3) => (Err e', mkWorld (clock w2) t3)
          | (Ok _, t3) => (Ok tt, mkWorld (clock w2) t3)
          end
      | (Err e, w2) =>
          match stop (clock w2) (timer w2) with
          | (Err e', t3) => (Err e', mkWorld (clock w2) t3)
          | (Ok _, t3) => (Err e, mkWorld (clock w2) t3)
          end
      end
  end.
Proof.
  unfold with_timer, with_stmt, __enter__, __exit__, on_timer, bind, ret.
  destruct (start (clock w) (timer w)) as [[u|e] t1]; [|reflexivity].
  destruct (body (mkWorld (clock w) t1)) as [[[]|e] w2];
    destruct (stop (clock w2) (timer w2)) as [[[]|e'] t3]; reflexivity.
Qed.

(** C3: [with timer:] calls [start] on entry; if that raises (the timer
    is running) the exception propagates, the body does not run and no
    [stop] is made (the world is unchanged).  Otherwise the body runs from
    the started timer and, whatever its outcome, [stop] is called on the
    world the body left: the final world is the one [stop] produces; when
    that [stop] succeeds the body's outcome, an exception included, is
    what the statement ends with, unchanged. *)
Theorem with_timer_scoped (body : M unit) (w : World) :
  (is_running (timer w) = true -> with_timer body w = (Err AlreadyRunning, w)) /\
  (is_running (timer w) = false ->
     forall r w2, body (started w) = (r, w2) ->
       snd (with_timer body w) = snd (on_timer stop w2) /\
       forall t0, _start_time (timer w2) = Some t0 ->
         with_timer body w = (r, mkWorld (clock w2) (mkTimer None (Some (clock w2 - t0))))).
Proof.
  rewrite with_timer_unfold. destruct w as [c [[st|] el]]; unfold is_running; simpl.
  - split; [reflexivity | discriminate].
  - split; [discriminate|]. intros _ r w2 Hb. unfold started in Hb. simpl in Hb.
    rewrite Hb. unfold on_timer. destruct w2 as [c2 [[t2|] el2]]; simpl.
    + destruct r as [[]|e]; split; try reflexivity; intros t0 Ht; injection Ht as <-;
        reflexivity.
    + destruct r as [[]|e]; split; try reflexivity; intros t0 Ht; discriminate.
Qed.

Lemma with_timer_scoped_witness :
  with_timer (tick 1) (mkWorld 0 (mkTimer (Some 0) None)) =
    (Err AlreadyRunning, mkWorld 0 (mkTimer (Some 0) None)) /\
  with_timer (tick 2 ;; raise (UserError 1)) (mkWorld 3 Timer_init) =
    (Err (UserError 1), mkWorld (3 + 2) (mkTimer None (Some (3 + 2 - 3)))).
Proof.
  split.
  - apply (proj1 (with_timer_scoped (tick 1) (mkWorld 0 (mkTimer (Some 0) None)))).
    reflexivity.
  - apply (proj2 (with_timer_scoped (tick 2 ;; raise (UserError 1)) (mkWorld 3 Timer_init))
             eq_refl (Err (UserError 1)) (mkWorld (3 + 2) (mkTimer (Some 3) None))
             eq_refl).
    reflexivity.
Defined.

(** C10: if the body of [with timer:] calls [timer.stop()] itself and
    completes without raising, with the timer not running when the body
    ends (whatever ran before or after that [stop]), then the [stop] made
    by [__exit__] raises NotRunning, so the statement raises although its
    body did not. *)
Theorem manual_stop_in_with (body : M unit) (w w2 : World) :
  is_running (timer w) = false ->
  body (started w) = (Ok tt, w2) ->
  is_running (timer w2) = false ->
  fst (with_timer body w) = Err NotRunning.
Proof.
  intros Hi Hb Hr. rewrite with_timer_unfold.
  destruct w as [c [[st|] el]]; [discriminate|]. unfold started in Hb. simpl in *.
  rewrite Hb. destruct w2 as [c2 [[t2|] el2]]; [discriminate|]. reflexivity.
Qed.

Lemma manual_stop_in_with_witness :
  is_running (timer (mkWorld 0 Timer_init)) = false /\
  fst (with_timer (tick 2 ;; on_timer stop ;; tick 5) (mkWorld 0 Timer_init)) = Err NotRunning.
Proof.
  split; [reflexivity|].
  apply (manual_stop_in_with (tick 2 ;; on_timer stop ;; tick 5) (mkWorld 0 Timer_init)
           (mkWorld (0 + 2 + 5) (mkTimer None (Some (0 + 2 - 0))))); reflexivity.
Defined.

(** ** C4: [time_function] *)

Lemma time_function_ok {Args R} (func : Args -> M R) (args : Args) (w : World) v w' :
  func args w = (Ok v, w') ->
  time_function_frame func args w =
    (Ok (v, clock w' - clock w), mkTimer None (Some (clock w' - clock w)), w') /\
  time_function func args w = (Ok (v, clock w' - clock w), w').
Proof.
  intros H. unfold time_function, time_function_frame. simpl. rewrite H. split; reflexivity.
Qed.

Lemma time_function_err {Args R} (func : Args -> M R) (args : Args) (w : World) e w' :
  func args w = (Err e, w') ->
  time_function_frame func args w = (Err e, mkTimer (Some (clock w)) None, w') /\
  time_function func args w = (Err e, w').
Proof.
  intros H. unfold time_function, time_function_frame. simpl. rewrite H. split; reflexivity.
Qed.

(** C4: [time_function(func, *args)] starts a fresh timer at the current
    [perf_counter] reading [clock w] and calls [func] with [args].  If the
    call returns [v], the timer is stopped when it returns and the result
    is [(v, t_end - t_start)].  If the call raises [e], [e] propagates
    unchanged and the local timer is left running (started at [clock w],
    no stored duration): [stop] is only reached on normal return. *)
Theorem time_function_spec {Args R} (func : Args -> M R) (args : Args) (w : World) :
  (forall v w', func args w = (Ok v, w') ->
     time_function_frame func args w =
       (Ok (v, clock w' - clock w), mkTimer None (Some (clock w' - clock w)), w') /\
     time_function func args w = (Ok (v, clock w' - clock w), w')) /\
  (forall e w', func args w = (Err e, w') ->
     time_function_frame func args w = (Err e, mkTimer (Some (clock w)) None, w') /\
     is_running (mkTimer (Some (clock w)) None) = true /\
     time_function func args w = (Err e, w')).
Proof.
  split.
  - intros v w' H. apply time_function_ok; exact H.
  - intros e w' H. destruct (time_function_err func args w e w' H) as [H1 H2].
    repeat split; assumption.
Qed.

Lemma time_function_spec_witness :
  time_function (fun n : nat => tick 2 ;; ret (n + 1)%nat) 4%nat (mkWorld 1 Timer_init) =
    (Ok (5%nat, (1 + 2) - 1), mkWorld (1 + 2) Timer_init) /\
  time_function_frame (fun n : nat => tick 2 ;; @raise nat (UserError n)) 4%nat (mkWorld 1 Timer_init) =
    (Err (UserError 4), mkTimer (Some 1) None, mkWorld (1 + 2) Timer_init).
Proof.
  split.
  - apply (proj1 (time_function_spec (fun n : nat => tick 2 ;; ret (n + 1)%nat) 4%nat
                    (mkWorld 1 Timer_init)) 5%nat (mkWorld (1 + 2) Timer_init)).
    reflexivity.
  - apply (proj2 (time_function_spec (fun n : nat => tick 2 ;; @raise nat (UserError n)) 4%nat
                    (mkWorld 1 Timer_init)) (UserError 4) (mkWorld (1 + 2) Timer_init)).
    reflexivity.
Defined.

(** ** C1 and C5: [compare_functions] *)

Lemma compare_functions_ok_inv {Args R1 R2} (f1 : Args -> M R1) (f2 : Args -> M R2)
    (args : Args) (w : World) c w' :
  compare_functions f1 f2 args w = (Ok c, w') ->
  exists w1,
    time_function f1 args w = (Ok (result1 c, time1 c), w1) /\
    time_function f2 args w1 = (Ok (result2 c, time2 c), w') /\
    faster c = (if Qlt_le_dec (time1 c) (time2 c) then "func1" else "func2") /\
    (if Qlt_le_dec 0 (py_min (time1 c) (time2 c))
     then py_div (py_max (time1 c) (time2 c)) (py_min (time1 c) (time2 c))
     else Ok PosInf) = Ok (speedup c).
Proof.
  unfold compare_functions, bind at 1.
  destruct (time_function f1 args w) as [[[r1 t1]|e] w1] eqn:E1; [|discriminate].
  unfold bind at 1.
  destruct (time_function f2 args w1) as [[[r2 t2]|e] w2] eqn:E2; [|discriminate].
  unfold bind, lift, ret.
  destruct (Qlt_le_dec 0 (py_min t1 t2)) as [Hp|Hp].
  - destruct (py_div (py_max t1 t2) (py_min t1 t2)) as [sp|e] eqn:Hd; [|discriminate].
    intros H; injection H as <- <-. exists w1. simpl.
    repeat split; try reflexivity; try assumption.
    destruct (Qlt_le_dec 0 (py_min t1 t2)); [exact Hd | exfalso; exact (Qlt_not_le _ _ Hp q)].
  - intros H; injection H as <- <-. exists w1. simpl.
    repeat split; try reflexivity; try assumption.
    destruct (Qlt_le_dec 0 (py_min t1 t2)) as [Hq|]; [exfalso; exact (Qlt_not_le _ _ Hq Hp) | reflexivity].
Qed.

Lemma py_min_Qmin (a b : Q) : py_min a b == Qmin a b.
Proof.
  unfold py_min. destruct (Qlt_le_dec b a) as [H|H].
  - symmetry. apply Q.min_r. apply Qlt_le_weak. exact H.
  - symmetry. apply Q.min_l. exact H.
Qed.

Lemma py_max_Qmax (a b : Q) : py_max a b == Qmax a b.
Proof.
  unfold py_max. destruct (Qlt_le_dec a b) as [H|H].
  - symmetry. apply Q.max_r. apply Qlt_le_weak. exact H.
  - symmetry. apply Q.max_l. exact H.
Qed.

(** C1 (as the code has it): [faster] is ["func1"] exactly when the first
    measured duration is strictly smaller; otherwise, ties included, it is
    ["func2"]. *)
Theorem compare_functions_faster {Args R1 R2} (f1 : Args -> M R1) (f2 : Args -> M R2)
    (args : Args) (w : World) c w' :
  compare_functions f1 f2 args w = (Ok c, w') ->
  (time1 c < time2 c -> faster c = "func1") /\
  (time2 c <= time1 c -> faster c = "func2").
Proof.
  intros H. destruct (compare_functions_ok_inv f1 f2 args w c w' H) as (w1 & _ & _ & Hf & _).
  rewrite Hf. destruct (Qlt_le_dec (time1 c) (time2 c)) as [Hl|Hl]; split; intros Hc;
    try reflexivity; exfalso; exact (Qlt_not_le _ _ Hl Hc) || exact (Qlt_not_le _ _ Hc Hl).
Qed.

Definition cmp_w0 : World := mkWorld 0 Timer_init.

Lemma compare_functions_faster_witness :
  compare_functions (fun n : nat => tick 3 ;; ret n) (fun n : nat => tick 1 ;; ret n) 0%nat cmp_w0 =
    (Ok (mkComparison 0%nat 0%nat (0 + 3 - 0) (0 + 3 + 1 - (0 + 3)) "func2" (Fin (3 # 1))),
     mkWorld (0 + 3 + 1) Timer_init) /\
  faster (mkComparison 0%nat 0%nat (0 + 3 - 0) (0 + 3 + 1 - (0 + 3)) "func2" (Fin (3 # 1)))
    = "func2".
Proof.
  assert (E : compare_functions (fun n : nat => tick 3 ;; ret n) (fun n : nat => tick 1 ;; ret n)
                0%nat cmp_w0 =
              (Ok (mkComparison 0%nat 0%nat (0 + 3 - 0) (0 + 3 + 1 - (0 + 3)) "func2" (Fin (3 # 1))),
               mkWorld (0 + 3 + 1) Timer_init)) by (vm_compute; reflexivity).
  split; [exact E|].
  apply (proj2 (compare_functions_faster _ _ _ _ _ _ E)).
  vm_compute. discriminate.
Defined.

(** C1: with two callables that return at once, both measured durations
    are [0] and [faster] is ["func2"]: a tie does not favor the first. *)
Lemma compare_functions_tie_counterexample :
  ~ (forall (c : Comparison nat nat) w',
       compare_functions (fun n : nat => ret n) (fun n : nat => ret n) 0%nat cmp_w0 = (Ok c, w') ->
       time1 c == time2 c -> faster c = "func1").
Proof.
  intros H.
  assert (E : compare_functions (fun n : nat => ret n) (fun n : nat => ret n) 0%nat cmp_w0 =
              (Ok (mkComparison 0%nat 0%nat (0 - 0) (0 - 0) "func2" PosInf), cmp_w0))
    by (vm_compute; reflexivity).
  specialize (H _ _ E). simpl in H. discriminate (H (Qeq_refl _)).
Qed.

(** C5: when both callables return, [compare_functions] returns (the
    speedup computation raises nothing, [ZeroDivisionError] included), the
    durations are the two measured ones, and [speedup] is the larger
    duration divided by the smaller when the smaller is positive, and
    [float('inf')] when the smaller is exactly [0]. *)
Theorem compare_functions_speedup {Args R1 R2} (f1 : Args -> M R1) (f2 : Args -> M R2)
    (args : Args) (w : World) v1 w1 v2 w2 :
  f1 args w = (Ok v1, w1) ->
  f2 args w1 = (Ok v2, w2) ->
  exists c,
    compare_functions f1 f2 args w = (Ok c, w2) /\
    result1 c = v1 /\ result2 c = v2 /\
    time1 c = clock w1 - clock w /\ time2 c = clock w2 - clock w1 /\
    (0 < Qmin (time1 c) (time2 c) ->
       exists q, speedup c = Fin q /\ q == Qmax (time1 c) (time2 c) / Qmin (time1 c) (time2 c)) /\
    (Qmin (time1 c) (time2 c) == 0 -> speedup c = PosInf).
Proof.
  intros H1 H2.
  destruct (time_function_ok f1 args w v1 w1 H1) as [_ T1].
  destruct (time_function_ok f2 args w1 v2 w2 H2) as [_ T2].
  set (t1 := clock w1 - clock w) in *. set (t2 := clock w2 - clock w1) in *.
  unfold compare_functions, bind at 1. rewrite T1. unfold bind at 1. rewrite T2.
  unfold bind, lift, ret, py_div.
  destruct (Qlt_le_dec 0 (py_min t1 t2)) as [Hp|Hp].
  - assert (Hz : Qeq_bool (py_min t1 t2) 0 = false).
    { apply not_true_is_false. intros Hq. apply Qeq_bool_eq in Hq.
      rewrite Hq in Hp. exact (Qlt_irrefl _ Hp). }
    rewrite Hz.
    eexists; split; [reflexivity|]. simpl. repeat split.
    + intros _. eexists; split; [reflexivity|].
      rewrite py_min_Qmin, py_max_Qmax. reflexivity.
    + intros Hq. rewrite <- py_min_Qmin in Hq. rewrite Hq in Hp.
      exfalso; exact (Qlt_irrefl _ Hp).
  - eexists; split; [reflexivity|]. simpl. repeat split.
    + intros Hq. rewrite <- py_min_Qmin in Hq. exfalso; exact (Qlt_not_le _ _ Hq Hp).
Qed.

Lemma compare_functions_speedup_witness :
  exists c,
    compare_functions (fun n : nat => tick 3 ;; ret n) (fun n : nat => tick 1 ;; ret n) 0%nat cmp_w0
      = (Ok c, mkWorld (0 + 3 + 1) Timer_init) /\
    result1 c = 0%nat /\ result2 c = 0%nat /\
    time1 c = 0 + 3 - 0 /\ time2 c = 0 + 3 + 1 - (0 + 3) /\
    (0 < Qmin (time1 c) (time2 c) ->
       exists q, speedup c = Fin q /\ q == Qmax (time1 c) (time2 c) / Qmin (time1 c) (time2 c)) /\
    (Qmin (time1 c) (time2 c) == 0 -> speedup c = PosInf).
Proof.
  apply (compare_functions_speedup (fun n : nat => tick 3 ;; ret n) (fun n : nat => tick 1 ;; ret n)
           0%nat cmp_w0 0%nat (mkWorld (0 + 3) Timer_init) 0%nat (mkWorld (0 + 3 + 1) Timer_init));
    reflexivity.
Defined.

(** ** C8: [Point.__add__] *)

Import PointClass.

(** C8: adding two Points (references [i] and [j] into the heap, possibly
    the same object) allocates a fresh Point holding the pairwise sums and
    leaves both operands as they were; an operand that is not a Point
    (an int, or an object of another class even with numeric [x] and [y])
    raises [TypeError] and changes nothing. *)
Theorem point_add_spec (h : Heap) (i : nat) :
  (forall j p q, nth_error h i = Some p -> nth_error h j = Some q ->
     let '(r, h') := __add__ i (VPoint j) h in
     r = Ok (VPoint (length h)) /\
     nth_error h' (length h) = Some (mkPoint (x p + x q) (y p + y q)) /\
     length h <> i /\ length h <> j /\
     nth_error h' i = Some p /\ nth_error h' j = Some q /\
     (forall k, (k < length h)%nat -> nth_error h' k = nth_error h k)) /\
  (forall other, (forall r, other <> VPoint r) ->
     __add__ i other h = (Err (TypeError "add only works for Point type"), h)).
Proof.
  split.
  - intros j p q Hp Hq. unfold __add__. rewrite Hp, Hq. simpl.
    assert (Hi : (i < length h)%nat) by (apply nth_error_Some; rewrite Hp; discriminate).
    assert (Hj : (j < length h)%nat) by (apply nth_error_Some; rewrite Hq; discriminate).
    assert (Hk : forall k, (k < length h)%nat -> nth_error (h ++ [mkPoint (x p + x q) (y p + y q)]) k
                                          = nth_error h k)
      by (intros k Hk; apply nth_error_app1; exact Hk).
    repeat split.
    + rewrite nth_error_app2, PeanoNat.Nat.sub_diag by lia. reflexivity.
    + lia.
    + lia.
    + rewrite Hk by exact Hi. exact Hp.
    + rewrite Hk by exact Hj. exact Hq.
    + exact Hk.
  - intros [r|z|cls ox oy] Hn; [exfalso; exact (Hn r eq_refl)| reflexivity | reflexivity].
Qed.

Definition demo_heap : Heap := [mkPoint 3 4; mkPoint 7 10].

Lemma point_add_spec_witness :
  (let '(r, h') := __add__ 0%nat (VPoint 1%nat) demo_heap in
   r = Ok (VPoint 2%nat) /\
   nth_error h' 2%nat = Some (mkPoint (3 + 7) (4 + 10)) /\
   2%nat <> 0%nat /\ 2%nat <> 1%nat /\
   nth_error h' 0%nat = Some (mkPoint 3 4) /\ nth_error h' 1%nat = Some (mkPoint 7 10) /\
   (forall k, (k < 2)%nat -> nth_error h' k = nth_error demo_heap k)) /\
  __add__ 0%nat (VObject "Vector" 5 5) demo_heap
    = (Err (TypeError "add only works for Point type"), demo_heap).
Proof.
  split.
  - apply (proj1 (point_add_spec demo_heap 0%nat) 1%nat (mkPoint 3 4) (mkPoint 7 10)); reflexivity.
  - apply (proj2 (point_add_spec demo_heap 0%nat)). intros r; discriminate.
Defined.

(** * Further properties of the code *)

(** ** [Timer] *)

(** A complete cycle: on an idle timer, whatever duration it stored
    before, [start] at [t0] and [stop] at [t1] both succeed, and the timer
    is idle again with [elapsed()] returning [t1 - t0]. *)
Theorem start_stop_cycle (s : Timer) (t0 t1 : Q) :
  is_running s = false ->
  let '(r0, s1) := start t0 s in
  let '(r1, s2) := stop t1 s1 in
  r0 = Ok tt /\ r1 = Ok tt /\ is_running s2 = false /\ elapsed s2 = Ok (t1 - t0).
Proof.
  destruct s as [[st|] el]; unfold is_running; simpl; [discriminate|].
  intros _. repeat split.
Qed.

Lemma start_stop_cycle_witness :
  is_running (mkTimer None (Some 9)) = false /\
  (let '(r0, s1) := start 2 (mkTimer None (Some 9)) in
   let '(r1, s2) := stop 5 s1 in
   r0 = Ok tt /\ r1 = Ok tt /\ is_running s2 = false /\ elapsed s2 = Ok (5 - 2)).
Proof. split; [reflexivity | apply start_stop_cycle; reflexivity]. Defined.

(** [start] succeeds exactly on an idle timer; it then runs from [now],
    and the duration of the previous cycle stays readable: [elapsed()]
    during a run returns what it returned before the run. *)
Theorem start_keeps_previous_duration (now : Q) (s : Timer) :
  (fst (start now s) = Ok tt <-> is_running s = false) /\
  (is_running s = false ->
     _start_time (snd (start now s)) = Some now /\
     elapsed (snd (start now s)) = elapsed s).
Proof.
  destruct s as [[st|] el]; unfold is_running; simpl; repeat split;
    try discriminate; try reflexivity.
Qed.

Lemma start_keeps_previous_duration_witness :
  elapsed (snd (start 8 (mkTimer None (Some 3)))) = Ok 3.
Proof.
  exact (proj2 (proj2 (start_keeps_previous_duration 8 (mkTimer None (Some 3))) eq_refl)).
Defined.

(** [stop] succeeds exactly on a running timer; it then leaves it idle. *)
Theorem stop_succeeds_iff_running (now : Q) (s : Timer) :
  (fst (stop now s) = Ok tt <-> is_running s = true) /\
  is_running (snd (stop now s)) = false.
Proof.
  destruct s as [[st|] el]; unfold is_running; simpl; repeat split;
    try discriminate; try reflexivity.
Qed.

Lemma no_run_not_seconds (s : string) :
  (s ++ " seconds")%string <> "Timer has not run yet".
Proof.
  intros H.
  repeat (destruct s as [|? s]; simpl in H; [discriminate | first [discriminate | injection H as _ H]]).
Qed.

(** [str(timer)] is the message ["Timer has not run yet"] exactly when
    [elapsed()] raises NeverRun, whatever the float formatting; otherwise
    it ends in [" seconds"]. *)
Theorem str_not_run_iff_never_run (format_fixed : nat -> Q -> string) (s : Timer) :
  (__str__ format_fixed s = "Timer has not run yet" <-> elapsed s = Err NeverRun) /\
  (forall d, elapsed s = Ok d ->
     __str__ format_fixed s = (format_fixed DEFAULT_PRECISION d ++ " seconds")%string).
Proof.
  destruct s as [st [el|]]; unfold __str__, elapsed; simpl; repeat split.
  - intros H. exfalso. exact (no_run_not_seconds _ H).
  - discriminate.
  - intros d H; injection H as <-. reflexivity.
  - intros d H; discriminate.
Qed.

Lemma str_not_run_iff_never_run_witness :
  __str__ (fun _ _ => "0.000001") (mkTimer None (Some (1 # 1000000)))
    = "0.000001 seconds".
Proof.
  exact (proj2 (str_not_run_iff_never_run (fun _ _ => "0.000001")
                  (mkTimer None (Some (1 # 1000000)))) (1 # 1000000) eq_refl).
Defined.

Lemma stop_succeeds_iff_running_witness :
  fst (stop 4 (mkTimer (Some 1) None)) = Ok tt.
Proof. apply (proj1 (stop_succeeds_iff_running 4 (mkTimer (Some 1) None))). reflexivity. Defined.

(** ** [with timer:] *)

(** On an idle timer, a body that does not call the timer itself ends with
    the timer idle and [elapsed()] returning the time the body took, from
    the clock at entry to the clock at exit; the body's outcome, raised
    exception included, is the statement's outcome. *)
Theorem with_timer_records_body_time (body : M unit) (w : World) r w2 :
  is_running (timer w) = false ->
  body (started w) = (r, w2) ->
  timer w2 = timer (started w) ->
  with_timer body w = (r, mkWorld (clock w2) (mkTimer None (Some (clock w2 - clock w)))) /\
  elapsed (timer (snd (with_timer body w))) = Ok (clock w2 - clock w).
Proof.
  intros Hi Hb Ht. rewrite with_timer_unfold.
  destruct w as [c [[st|] el]]; [discriminate|]. unfold started in *; simpl in *.
  rewrite Hb. destruct w2 as [c2 t2]; simpl in *. subst t2. simpl.
  destruct r as [[]|e]; split; reflexivity.
Qed.

Lemma with_timer_records_body_time_witness :
  with_timer (tick 4 ;; raise (UserError 2)) (mkWorld 1 Timer_init) =
    (Err (UserError 2), mkWorld (1 + 4) (mkTimer None (Some (1 + 4 - 1)))).
Proof.
  apply (proj1 (with_timer_records_body_time (tick 4 ;; raise (UserError 2))
                  (mkWorld 1 Timer_init) (Err (UserError 2))
                  (mkWorld (1 + 4) (mkTimer (Some 1) None)) eq_refl eq_refl eq_refl)).
Defined.

(** Nesting [with timer:] on the same idle timer: the inner [__enter__]
    raises AlreadyRunning, the inner body never runs, the outer [__exit__]
    still stops the timer, and AlreadyRunning leaves the statement with the
    outer work's duration stored. *)
Theorem nested_with_same_timer (pre inner : M unit) (w w1 : World) :
  is_running (timer w) = false ->
  pre (started w) = (Ok tt, w1) ->
  timer w1 = timer (started w) ->
  with_timer (pre ;; with_timer inner) w =
    (Err AlreadyRunning, mkWorld (clock w1) (mkTimer None (Some (clock w1 - clock w)))).
Proof.
  intros Hi Hp Ht. rewrite with_timer_unfold.
  destruct w as [c [[st|] el]]; [discriminate|]. unfold started in *; simpl in *.
  unfold bind at 1. rewrite Hp. rewrite with_timer_unfold.
  destruct w1 as [c1 t1]; simpl in *. subst t1. reflexivity.
Qed.

Lemma nested_with_same_timer_witness :
  with_timer (tick 1 ;; with_timer (tick 5)) (mkWorld 0 Timer_init) =
    (Err AlreadyRunning, mkWorld (0 + 1) (mkTimer None (Some (0 + 1 - 0)))).
Proof.
  apply (nested_with_same_timer (tick 1) (tick 5) (mkWorld 0 Timer_init)
           (mkWorld (0 + 1) (mkTimer (Some 0) None))); reflexivity.
Defined.

(** ** [compare_functions] *)

(** Whenever [compare_functions] returns a finite [speedup], it is at
    least [1]: the finite case only happens when the smaller duration is
    positive, and the larger one is divided by it. *)
Theorem compare_functions_speedup_ge_1 {Args R1 R2} (f1 : Args -> M R1) (f2 : Args -> M R2)
    (args : Args) (w : World) c w' q :
  compare_functions f1 f2 args w = (Ok c, w') ->
  speedup c = Fin q ->
  1 <= q.
Proof.
  intros H Hs. destruct (compare_functions_ok_inv f1 f2 args w c w' H) as (w1 & _ & _ & _ & Hsp).
  rewrite Hs in Hsp. set (t1 := time1 c) in *. set (t2 := time2 c) in *.
  destruct (Qlt_le_dec 0 (py_min t1 t2)) as [Hp|Hp]; [|discriminate].
  unfold py_div in Hsp. destruct (Qeq_bool (py_min t1 t2) 0); [discriminate|].
  injection Hsp as <-.
  assert (Hle : py_min t1 t2 <= py_max t1 t2).
  { rewrite py_min_Qmin, py_max_Qmax.
    apply Qle_trans with t1; [apply Q.le_min_l | apply Q.le_max_l]. }
  apply Qle_shift_div_l; [exact Hp|]. rewrite Qmult_1_l. exact Hle.
Qed.

Lemma compare_functions_speedup_ge_1_witness :
  1 <= 3 # 1.
Proof.
  apply (compare_functions_speedup_ge_1 (fun n : nat => tick 3 ;; ret n)
           (fun n : nat => tick 1 ;; ret n) 0%nat cmp_w0
           (mkComparison 0%nat 0%nat (0 + 3 - 0) (0 + 3 + 1 - (0 + 3)) "func2" (Fin (3 # 1)))
           (mkWorld (0 + 3 + 1) Timer_init));
    vm_compute; reflexivity.
Defined.

(** [compare_functions] runs the callables in order and stops at the
    first exception: if [func1] raises, that exception propagates and
    [func2] is never called (the world is as [func1] left it); if [func1]
    returns and [func2] raises, [func2]'s exception propagates. *)
Theorem compare_functions_propagates {Args R1 R2} (f1 : Args -> M R1) (f2 : Args -> M R2)
    (args : Args) (w : World) :
  (forall e w1, f1 args w = (Err e, w1) -> compare_functions f1 f2 args w = (Err e, w1)) /\
  (forall v1 w1 e w2, f1 args w = (Ok v1, w1) -> f2 args w1 = (Err e, w2) ->
     compare_functions f1 f2 args w = (Err e, w2)).
Proof.
  split.
  - intros e w1 H. unfold compare_functions, bind at 1.
    rewrite (proj2 (time_function_err f1 args w e w1 H)). reflexivity.
  - intros v1 w1 e w2 H1 H2. unfold compare_functions, bind at 1.
    rewrite (proj2 (time_function_ok f1 args w v1 w1 H1)). unfold bind at 1.
    rewrite (proj2 (time_function_err f2 args w1 e w2 H2)). reflexivity.
Qed.

Lemma compare_functions_propagates_witness :
  compare_functions (fun n : nat => tick 1 ;; @raise nat (UserError n))
    (fun n : nat => tick 1 ;; ret n) 7%nat cmp_w0 = (Err (UserError 7), mkWorld (0 + 1) Timer_init).
Proof.
  apply (proj1 (compare_functions_propagates (fun n : nat => tick 1 ;; @raise nat (UserError n))
                  (fun n : nat => tick 1 ;; ret n) 7%nat cmp_w0)).
  reflexivity.
Defined.

(** ** [Point.translate] and [Point.__add__] *)

Lemma update_nth_error {A} (h : list A) (i k : nat) (v : A) :
  (i < length h)%nat ->
  nth_error (firstn i h ++ v :: skipn (S i) h) k =
    if PeanoNat.Nat.eqb k i then Some v else nth_error h k.
Proof.
  intros Hi.
  assert (Hl : length (firstn i h) = i) by (apply firstn_length_le; lia).
  destruct (PeanoNat.Nat.lt_trichotomy k i) as [Hk|[Hk|Hk]].
  - rewrite nth_error_app1 by lia.
    replace (PeanoNat.Nat.eqb k i) with false by (symmetry; apply PeanoNat.Nat.eqb_neq; lia).
    rewrite nth_error_firstn. destruct (PeanoNat.Nat.ltb_spec k i); [reflexivity | lia].
  - subst k. rewrite nth_error_app2 by lia. rewrite Hl, PeanoNat.Nat.sub_diag, PeanoNat.Nat.eqb_refl.
    reflexivity.
  - rewrite nth_error_app2 by lia. rewrite Hl.
    replace (PeanoNat.Nat.eqb k i) with false by (symmetry; apply PeanoNat.Nat.eqb_neq; lia).
    replace (k - i)%nat with (S (k - S i)) by lia.
    change (nth_error (v :: skipn (S i) h) (S (k - S i)))
      with (nth_error (skipn (S i) h) (k - S i)).
    rewrite nth_error_skipn. f_equal. lia.
Qed.

Lemma update_length {A} (h : list A) (i : nat) (v : A) :
  (i < length h)%nat -> length (firstn i h ++ v :: skipn (S i) h) = length h.
Proof.
  intros Hi. rewrite length_app. cbn [length]. rewrite firstn_length_le, length_skipn by lia. lia.
Qed.

(** [p.translate(dx, dy)] on a Point [p] (reference [i]) moves it in
    place by [(dx, dy)]; every other object of the heap is unchanged and
    no object is created. *)
Theorem translate_in_place (h : Heap) (i : nat) (p : Point) (dx dy : Q) :
  nth_error h i = Some p ->
  let '(r, h') := translate i dx dy h in
  r = Ok tt /\ length h' = length h /\
  nth_error h' i = Some (mkPoint (x p + dx) (y p + dy)) /\
  (forall k, k <> i -> nth_error h' k = nth_error h k).
Proof.
  intros Hp. unfold translate. rewrite Hp.
  assert (Hi : (i < length h)%nat) by (apply nth_error_Some; rewrite Hp; discriminate).
  repeat split.
  - apply update_length; exact Hi.
  - rewrite update_nth_error, PeanoNat.Nat.eqb_refl by exact Hi. reflexivity.
  - intros k Hk. rewrite update_nth_error by exact Hi.
    replace (PeanoNat.Nat.eqb k i) with false by (symmetry; apply PeanoNat.Nat.eqb_neq; exact Hk).
    reflexivity.
Qed.

Lemma translate_in_place_witness :
  let '(r, h') := translate 1%nat 2 3 demo_heap in
  r = Ok tt /\ length h' = length demo_heap /\
  nth_error h' 1%nat = Some (mkPoint (7 + 2) (10 + 3)) /\
  (forall k, k <> 1%nat -> nth_error h' k = nth_error demo_heap k).
Proof. apply (translate_in_place demo_heap 1%nat (mkPoint 7 10)). reflexivity. Defined.

(** [p + q] and [q + p] create Points with equal coordinates. *)
Theorem point_add_comm (h : Heap) (i j : nat) (p q : Point) :
  nth_error h i = Some p -> nth_error h j = Some q ->
  exists s1 s2,
    nth_error (snd (__add__ i (VPoint j) h)) (length h) = Some s1 /\
    nth_error (snd (__add__ j (VPoint i) h)) (length h) = Some s2 /\
    x s1 == x s2 /\ y s1 == y s2.
Proof.
  intros Hp Hq. unfold __add__. rewrite Hp, Hq. simpl.
  rewrite !nth_error_app2, PeanoNat.Nat.sub_diag by lia. simpl.
  eexists _, _. repeat split; apply Qplus_comm.
Qed.

Lemma point_add_comm_witness :
  exists s1 s2,
    nth_error (snd (__add__ 0%nat (VPoint 1%nat) demo_heap)) (length demo_heap) = Some s1 /\
    nth_error (snd (__add__ 1%nat (VPoint 0%nat) demo_heap)) (length demo_heap) = Some s2 /\
    x s1 == x s2 /\ y s1 == y s2.
Proof. apply (point_add_comm demo_heap 0%nat 1%nat (mkPoint 3 4) (mkPoint 7 10)); reflexivity. Defined.
